(** * Sports Hub API

    A shallow embedding of [main.py]: the static catalogs with their
    filters, the request models, and the handlers that persist bookings,
    games and posts through the document-store adapter imported from
    [database].  Python dictionaries are finite maps from field names to
    values, [try]/[except] is a case analysis on a sum, and the
    process-wide handle [db] is threaded through the handlers that write. *)

From stdpp Require Import gmap strings list fin_maps pretty.

Open Scope string_scope.
Open Scope list_scope.

(** ** Python values *)

(** A float is only ever carried from the request to the store and back;
    it is kept as the literal that denotes it (its [repr]). *)
Inductive pyfloat :=
  | PyFloat (repr : string).

(** Modelled from the spec: the identifier the document store assigns to
    a document at creation.  The store's client is not among the sources
    and the specification calls the identifier opaque; it is a counter
    value here. *)
Inductive oid :=
  | Oid (n : N).

(** Modelled from the spec: the string form of a store-assigned
    identifier, its decimal numeral. *)
Definition oid_str (o : oid) : string :=
  match o with
  | Oid n => pretty n
  end.

(** The values a field of a document or of a request model can hold:
    [None], [bool], [int], [float], [str], and the identifier the store
    assigns to a document. *)
Inductive value :=
  | VNone
  | VBool (b : bool)
  | VInt (z : Z)
  | VFloat (f : pyfloat)
  | VStr (s : string)
  | VOid (o : oid).

Global Instance pyfloat_eq_dec : EqDecision pyfloat.
Proof. solve_decision. Defined.

Global Instance oid_eq_dec : EqDecision oid.
Proof. solve_decision. Defined.

Global Instance value_eq_dec : EqDecision value.
Proof. solve_decision. Defined.

(** A [dict] with string keys. *)
Abbreviation dict := (gmap string value).

(** [str(v)]. *)
Definition py_str (v : value) : string :=
  match v with
  | VNone => "None"
  | VBool true => "True"
  | VBool false => "False"
  | VInt z => pretty z
  | VFloat (PyFloat r) => r
  | VStr s => s
  | VOid o => oid_str o
  end.

(** An [Optional[str]] field as a value. *)
Definition opt_str (o : option string) : value :=
  match o with
  | Some s => VStr s
  | None => VNone
  end.

(** [if x:] on an [Optional[str]]: [None] and the empty string are both
    falsy; the result is the string the branch then works with. *)
Definition given (o : option string) : option string :=
  match o with
  | Some s => if decide (s = "") then None else Some s
  | None => None
  end.

(** ** Text

    A Python [str] is a sequence of code points, a [string] here is a
    sequence of bytes holding its UTF-8 encoding: a character starts at
    every byte that is not a continuation byte (binary 10xxxxxx). *)
Definition is_continuation (a : Ascii.ascii) : bool :=
  let n := Ascii.N_of_ascii a in ((128 <=? n) && (n <? 192))%N.

(** [len(s)]. *)
Fixpoint py_len (s : string) : nat :=
  match s with
  | EmptyString => 0
  | String a r => if is_continuation a then py_len r else S (py_len r)
  end.

(** [s[:n]]: the first [n] characters, each with all of its bytes. *)
Fixpoint py_prefix (n : nat) (s : string) : string :=
  match s with
  | EmptyString => EmptyString
  | String a r =>
      if is_continuation a then String a (py_prefix n r)
      else match n with
           | 0 => EmptyString
           | S m => String a (py_prefix m r)
           end
  end.

(** ** Exceptions *)

(** What the adapter or the handle raises; [str(e)] is its message. *)
Inductive py_exception :=
  | Exception (msg : string).

Definition exc_str (e : py_exception) : string :=
  match e with
  | Exception msg => msg
  end.

(** What a handler raises to the framework. *)
Inductive http_error :=
  | HTTPException (status_code : Z) (detail : string).

(** ** Request models *)

Module BookingIn.
Record t := mk {
  user_id : option string;
  venue_id : string;
  venue_name : string;
  venue_type : string;
  date : string;
  start_time : string;
  end_time : string;
  slots : Z;
  total_amount : pyfloat;
  share_to_social : bool;
}.

(** The model built from a request body; [None] stands for a field the
    body leaves out, which then takes its declared default. *)
Definition new (user_id : option string)
    (venue_id venue_name venue_type date start_time end_time : string)
    (slots : Z) (total_amount : pyfloat) (share_to_social : option bool) : t :=
  mk user_id venue_id venue_name venue_type date start_time end_time
     slots total_amount (default false share_to_social).

(** [payload.dict()]. *)
Definition dict (p : t) : dict :=
  list_to_map
    [ ("user_id", opt_str (user_id p));
      ("venue_id", VStr (venue_id p));
      ("venue_name", VStr (venue_name p));
      ("venue_type", VStr (venue_type p));
      ("date", VStr (date p));
      ("start_time", VStr (start_time p));
      ("end_time", VStr (end_time p));
      ("slots", VInt (slots p));
      ("total_amount", VFloat (total_amount p));
      ("share_to_social", VBool (share_to_social p)) ].
End BookingIn.

Module GameIn.
Record t := mk {
  title : string;
  sport : string;
  visibility : string;
  host_user_id : option string;
  max_players : Z;
  description : option string;
}.

Definition new (title sport : string) (visibility : option string)
    (host_user_id : option string) (max_players : option Z)
    (description : option string) : t :=
  mk title sport (default "public" visibility) host_user_id
     (default 10%Z max_players) description.

Definition dict (p : t) : dict :=
  list_to_map
    [ ("title", VStr (title p));
      ("sport", VStr (sport p));
      ("visibility", VStr (visibility p));
      ("host_user_id", opt_str (host_user_id p));
      ("max_players", VInt (max_players p));
      ("description", opt_str (description p)) ].
End GameIn.

Module PostIn.
Record t := mk {
  user_id : option string;
  content : string;
  image : option string;
}.

Definition dict (p : t) : dict :=
  list_to_map
    [ ("user_id", opt_str (user_id p));
      ("content", VStr (content p));
      ("image", opt_str (image p)) ].
End PostIn.

(** ** The venue catalog *)

Module Venue.
(** One entry of [SAMPLE_VENUES]; every entry has the same nine keys. *)
Record t := mk {
  id : string;
  name : string;
  type : string;
  tags : list string;
  address : string;
  rating : pyfloat;
  distance_km : pyfloat;
  price_per_30min : Z;
  image : string;
}.
End Venue.

Global Instance venue_eq_dec : EqDecision Venue.t.
Proof. solve_decision. Defined.

Definition SAMPLE_VENUES : list Venue.t :=
  [ Venue.mk "v1" "City Arena" "court" ["football"; "basketball"] "Downtown"
      (PyFloat "4.8") (PyFloat "1.1") 15
      "https://images.unsplash.com/photo-1517649763962-0c623066013b";
    Venue.mk "v2" "Hoops Central" "court" ["basketball"] "West End"
      (PyFloat "4.6") (PyFloat "2.0") 12
      "https://images.unsplash.com/photo-1483728642387-6c3bdd6c93e5";
    Venue.mk "v3" "Groove Studio" "studio" ["dance"; "zumba"] "Midtown"
      (PyFloat "4.7") (PyFloat "0.9") 10
      "https://images.unsplash.com/photo-1515169067865-5387ec356754";
    Venue.mk "v4" "Wellness Hub" "recovery" ["ice bath"; "massage"] "Riverside"
      (PyFloat "4.9") (PyFloat "1.5") 18
      "https://images.unsplash.com/photo-1519824145371-296894a0daa9";
    Venue.mk "v5" "Blue Pools" "recovery" ["swimming"] "Uptown"
      (PyFloat "4.5") (PyFloat "2.2") 8
      "https://images.unsplash.com/photo-1519315901367-f34ff9154487" ].

(** [GET /api/venues].  Every catalog entry has the keys [type] and
    [tags], so [v["type"]] never raises and [v.get("tags", [])] is the
    entry's tag list. *)
Definition get_venues (vtype tag : option string) : list Venue.t :=
  let items := SAMPLE_VENUES in
  let items :=
    match given vtype with
    | Some vtype => filter (λ v, Venue.type v = vtype) items
    | None => items
    end in
  let items :=
    match given tag with
    | Some tag => filter (λ v, tag ∈ Venue.tags v) items
    | None => items
    end in
  items.

Module Recommendation.
Record t := mk {
  title : string;
  items : list Venue.t;
}.
End Recommendation.

(** [GET /api/recommendations/recovery]. *)
Definition recommend_recovery : Recommendation.t :=
  let recos := take 3 (filter (λ v, Venue.type v = "recovery") SAMPLE_VENUES) in
  Recommendation.mk "Top picks to recover" recos.

(** ** The event catalog *)

Module Event.
(** One entry of [SAMPLE_EVENTS]; every entry has the same six keys. *)
Record t := mk {
  id : string;
  title : string;
  category : string;
  date : string;
  price : Z;
  image : string;
}.
End Event.

Global Instance event_eq_dec : EqDecision Event.t.
Proof. solve_decision. Defined.

Definition SAMPLE_EVENTS : list Event.t :=
  [ Event.mk "e1" "Local League Finals" "sports" "2025-11-30" 5
      "https://images.unsplash.com/photo-1517649763962-0c623066013b";
    Event.mk "e2" "Zumba Marathon" "dance" "2025-12-05" 12
      "https://images.unsplash.com/photo-1549576490-b0b4831ef60a";
    Event.mk "e3" "Strength Workshop" "workshop" "2025-12-10" 20
      "https://images.unsplash.com/photo-1554284126-aa88f22d8b74" ].

(** [GET /api/events].  Every catalog entry has the key [category], so
    [e["category"]] never raises. *)
Definition get_events (category : option string) : list Event.t :=
  let items := SAMPLE_EVENTS in
  let items :=
    match given category with
    | Some category => filter (λ e, Event.category e = category) items
    | None => items
    end in
  items.

(** ** The document-store adapter

    [main.py] imports [create_document], [get_documents] and the handle
    [db] from [database].  The handlers are written against that
    interface: [db] is [None] when no connection was made, a call either
    returns or raises, and a write may change the store. *)
Class Database (DB : Type) := {
  (** [create_document(collection_name, data)]: the new document's id. *)
  create_document :
    string → dict → option DB → (py_exception + string) * option DB;
  (** [get_documents(collection_name, filter_dict)]. *)
  get_documents : string → dict → option DB → py_exception + list dict;
  (** [db.name]. *)
  db_name : DB → py_exception + string;
  (** [db.list_collection_names()]. *)
  list_collection_names : DB → py_exception + list string;
}.

(** The body of the listing loops:
    [if "_id" in d: d["id"] = str(d.pop("_id"))]. *)
Definition stringify_id (d : dict) : dict :=
  match d !! "_id" with
  | Some internal => <["id" := VStr (py_str internal)]> (delete "_id" d)
  | None => d
  end.

(** The filter [list_bookings] queries with:
    [{"user_id": user_id} if user_id else {}]. *)
Definition booking_filter (user_id : option string) : dict :=
  match given user_id with
  | Some user_id => {["user_id" := VStr user_id]}
  | None => ∅
  end.

(** ** The diagnostics response *)

Module Diagnostics.
Record t := mk {
  backend : string;
  database : string;
  database_url : option string;
  database_name : option string;
  connection_status : string;
  collections : list string;
}.

Definition set_database (s : string) (r : t) : t :=
  mk (backend r) s (database_url r) (database_name r)
     (connection_status r) (collections r).

Definition set_database_url (s : option string) (r : t) : t :=
  mk (backend r) (database r) s (database_name r)
     (connection_status r) (collections r).

Definition set_database_name (s : option string) (r : t) : t :=
  mk (backend r) (database r) (database_url r) s
     (connection_status r) (collections r).

Definition set_connection_status (s : string) (r : t) : t :=
  mk (backend r) (database r) (database_url r) (database_name r)
     s (collections r).

Definition set_collections (l : list string) (r : t) : t :=
  mk (backend r) (database r) (database_url r) (database_name r)
     (connection_status r) l.

(** A block of statements that updates the response in place and may
    raise: what was assigned before the exception stays assigned. *)
Definition block (A : Type) : Type := t → (py_exception + A) * t.

Definition bind {A B} (m : block A) (k : A → block B) : block B :=
  λ r, match m r with
       | (inr a, r') => k a r'
       | (inl e, r') => (inl e, r')
       end.

(** An assignment to a key of the response. *)
Definition assign (f : t → t) : block unit := λ r, (inr (), f r).

(** A call that returns or raises. *)
Definition call {A} (c : py_exception + A) : block A := λ r, (c, r).

(** [try: body except Exception as e: handler]. *)
Definition try_except (body : block unit) (handler : py_exception → block unit)
    : block unit :=
  λ r, match body r with
       | (inl e, r') => handler e r'
       | (inr (), r') => (inr (), r')
       end.
End Diagnostics.

Global Instance block_bind : MBind Diagnostics.block :=
  λ A B k m, Diagnostics.bind m k.

Section Handlers.
Context {DB : Type} `{!Database DB}.

(** [POST /api/bookings].  In [{"id": booking_id, **payload.dict()}] the
    payload's keys come last and would win over [id]; the union of maps
    prefers its left operand. *)
Definition create_booking (payload : BookingIn.t) (db : option DB)
    : (http_error + dict) * option DB :=
  match create_document "booking" (BookingIn.dict payload) db with
  | (inr booking_id, db') =>
      let result := BookingIn.dict payload ∪ {["id" := VStr booking_id]} in
      (inr result, db')
  | (inl e, db') => (inl (HTTPException 500 (exc_str e)), db')
  end.

(** [GET /api/bookings]. *)
Definition list_bookings (user_id : option string) (db : option DB)
    : http_error + list dict :=
  let filt := booking_filter user_id in
  match get_documents "booking" filt db with
  | inr docs => inr (stringify_id <$> docs)
  | inl e => inl (HTTPException 500 (exc_str e))
  end.

(** [GET /api/games]; [get_documents] is called with its default filter. *)
Definition list_games (db : option DB) : http_error + list dict :=
  match get_documents "game" ∅ db with
  | inr docs => inr (stringify_id <$> docs)
  | inl _ => inr []
  end.

(** [POST /api/games]. *)
Definition create_game (payload : GameIn.t) (db : option DB)
    : (http_error + dict) * option DB :=
  match create_document "game" (GameIn.dict payload) db with
  | (inr gid, db') => (inr (GameIn.dict payload ∪ {["id" := VStr gid]}), db')
  | (inl e, db') => (inl (HTTPException 500 (exc_str e)), db')
  end.

(** [GET /api/posts]. *)
Definition list_posts (db : option DB) : http_error + list dict :=
  match get_documents "socialpost" ∅ db with
  | inr docs => inr (stringify_id <$> docs)
  | inl _ => inr []
  end.

(** [POST /api/posts]. *)
Definition create_post (payload : PostIn.t) (db : option DB)
    : (http_error + dict) * option DB :=
  match create_document "socialpost" (PostIn.dict payload) db with
  | (inr pid, db') => (inr (PostIn.dict payload ∪ {["id" := VStr pid]}), db')
  | (inl e, db') => (inl (HTTPException 500 (exc_str e)), db')
  end.

(** The statements of the outer [try] of [test_database]. *)
Definition probe (DATABASE_URL : option string) (db : option DB)
    : Diagnostics.block unit :=
  match db with
  | Some db =>
      Diagnostics.assign (Diagnostics.set_database "✅ Connected & Working") ;;
      Diagnostics.assign (Diagnostics.set_database_url
        (Some (match given DATABASE_URL with
               | Some _ => "✅ Set"
               | None => "❌ Not Set"
               end))) ;;
      name ← Diagnostics.call (db_name db);
      Diagnostics.assign (Diagnostics.set_database_name (Some name)) ;;
      Diagnostics.assign (Diagnostics.set_connection_status "Connected") ;;
      Diagnostics.try_except
        (collections ← Diagnostics.call (list_collection_names db);
         Diagnostics.assign (Diagnostics.set_collections (take 10 collections)))
        (λ e, Diagnostics.assign (Diagnostics.set_database
                ("⚠️ Connected but Error: " +:+ py_prefix 50 (exc_str e))))
  | None => Diagnostics.assign (Diagnostics.set_database "❌ Not Available")
  end.

(** [GET /test]; [DATABASE_URL] is [os.getenv("DATABASE_URL")]. *)
Definition test_database (DATABASE_URL : option string) (db : option DB)
    : Diagnostics.t :=
  let response :=
    Diagnostics.mk "✅ Running" "❌ Not Available" None None "Not Connected" [] in
  snd (Diagnostics.try_except (probe DATABASE_URL db)
         (λ e, Diagnostics.assign (Diagnostics.set_database
                 ("❌ Error: " +:+ py_prefix 50 (exc_str e))))
         response).

(** The exposed operations, one per route. *)
Inductive request :=
  | Root
  | GetOffers
  | GetVenues (vtype tag : option string)
  | GetEvents (category : option string)
  | RecentActivities
  | CreateBooking (payload : BookingIn.t)
  | ListBookings (user_id : option string)
  | RecommendRecovery
  | ListGames
  | CreateGame (payload : GameIn.t)
  | ListPosts
  | CreatePost (payload : PostIn.t)
  | TestDatabase.

(** What a request hands to [create_document]: the collection and the
    field map. *)
Definition writes (r : request) : list (string * dict) :=
  match r with
  | CreateBooking payload => [("booking", BookingIn.dict payload)]
  | CreateGame payload => [("game", GameIn.dict payload)]
  | CreatePost payload => [("socialpost", PostIn.dict payload)]
  | _ => []
  end.

(** The store after a request was served: only the three creating
    handlers call an operation of the adapter that writes. *)
Definition after (r : request) (db : option DB) : option DB :=
  match r with
  | CreateBooking payload => snd (create_booking payload db)
  | CreateGame payload => snd (create_game payload db)
  | CreatePost payload => snd (create_post payload db)
  | _ => db
  end.

End Handlers.

(** ** The document store of the specification *)

(** Modelled from the spec: the store behind [database.py], which is not
    among the sources.  A store has a name, named collections that keep
    their documents in insertion order, and a counter from which it
    assigns identifiers; a document is the given fields plus the
    identifier under [_id]. *)
Record store := mk_store {
  store_name : string;
  next_oid : N;
  collections : gmap string (list dict);
}.

Definition empty_store (name : string) : store := mk_store name 0 ∅.

(** Modelled from the spec: the insertion [create_document] of
    [database.py] performs on a reachable store: the document is the given
    fields plus the next identifier under [_id], appended to the named
    collection. *)
Definition store_insert (collection_name : string) (data : dict) (st : store)
    : store :=
  let doc := <["_id" := VOid (Oid (next_oid st))]> data in
  mk_store (store_name st) (N.succ (next_oid st))
    (<[collection_name := (collections st !!! collection_name) ++ [doc]]>
       (collections st)).

(** Modelled from the spec: [create_document] of [database.py]: inserts a
    new document with the given fields into the named collection and
    returns the store-assigned identifier as a string; fails when the store
    is unreachable. *)
Definition store_create_document (collection_name : string) (data : dict)
    (db : option store) : (py_exception + string) * option store :=
  match db with
  | Some st =>
      (inr (oid_str (Oid (next_oid st))),
       Some (store_insert collection_name data st))
  | None => (inl (Exception "Database not available"), None)
  end.

(** Modelled from the spec: [get_documents] of [database.py]: all
    documents of the collection that match every key/value pair of the
    filter, by equality, in insertion order; the empty filter matches every
    document.  On an unreachable store the read fails, which is what makes
    the bookings listing surface a server error. *)
Definition store_get_documents (collection_name : string) (filter_dict : dict)
    (db : option store) : py_exception + list dict :=
  match db with
  | Some st => inr (filter (λ d, filter_dict ⊆ d) (collections st !!! collection_name))
  | None => inl (Exception "Database not available")
  end.

(** Modelled from the spec: the adapter of [database.py] over that store;
    the handle's name is the store's, and its collection names are the
    names of its collections. *)
Global Instance store_database : Database store := {|
  create_document := store_create_document;
  get_documents := store_get_documents;
  db_name := λ st, inr (store_name st);
  list_collection_names := λ st, inr ((map_to_list (collections st)).*1);
|}.

(** The stores the exposed operations can produce, starting from no
    connection or from an empty store. *)
Inductive reachable : option store → Prop :=
  | reachable_unconnected : reachable None
  | reachable_empty name : reachable (Some (empty_store name))
  | reachable_after r db : reachable db → reachable (after r db).

(** A property of every document of every collection. *)
Definition store_Forall (P : dict → Prop) (st : store) : Prop :=
  ∀ c docs d, collections st !! c = Some docs → d ∈ docs → P d.

(** Every stored document carries an identifier the store has already
    handed out. *)
Definition well_formed (st : store) : Prop :=
  store_Forall
    (λ d, ∃ n, d !! "_id" = Some (VOid (Oid n)) ∧ (n < next_oid st)%N) st.

(** A second adapter, for the examples: a handle whose every operation
    raises, as when a connection was made and then lost.  The handle
    carries the message of the exception. *)
Global Instance lost_database : Database string := {|
  create_document := λ _ _ db, (inl (Exception (default "no handle" db)), db);
  get_documents := λ _ _ db, inl (Exception (default "no handle" db));
  db_name := λ msg, inl (Exception msg);
  list_collection_names := λ msg, inl (Exception msg);
|}.

(** ** Sample requests *)

(** The game of the specification's round trip: only a title and a sport. *)
Definition pickup_game : GameIn.t :=
  GameIn.new "3v3 Pickup" "basketball" None None None None.

Definition arena_booking : BookingIn.t :=
  BookingIn.new (Some "u1") "v1" "City Arena" "court" "2025-11-30"
    "18:00" "18:30" 1 (PyFloat "15.0") None.

Definition hello_post : PostIn.t := PostIn.mk None "Game on!" None.

(** * Properties *)

(** ** Truthiness and text *)

Lemma given_Some (o : option string) (s : string) :
  given o = Some s ↔ o = Some s ∧ s ≠ "".
Proof.
  unfold given. destruct o as [t|]; [|intuition congruence].
  destruct (decide (t = "")) as [->|Hne]; intuition congruence.
Qed.

Lemma given_None (o : option string) :
  given o = None ↔ o = None ∨ o = Some "".
Proof.
  unfold given. destruct o as [t|]; [|split; [by left|done]].
  destruct (decide (t = "")) as [->|Hne]; split; try done.
  - by right.
  - intros [?|?]; congruence.
Qed.

Lemma py_len_prefix (n : nat) (s : string) : (py_len (py_prefix n s) ≤ n)%nat.
Proof.
  revert n. induction s as [|a r IH]; intros n; simpl; [lia|].
  destruct (is_continuation a) eqn:Ha; simpl; rewrite ?Ha.
  - apply IH.
  - destruct n as [|m]; simpl; rewrite ?Ha; [lia|].
    specialize (IH m). lia.
Qed.

Lemma py_prefix_short (n : nat) (s : string) :
  (py_len s ≤ n)%nat → py_prefix n s = s.
Proof.
  revert n. induction s as [|a r IH]; intros n; simpl; [done|].
  destruct (is_continuation a).
  - intros Hn. by rewrite IH.
  - destruct n as [|m]; [lia|]. intros Hn. rewrite IH; [done|lia].
Qed.

Lemma py_len_prefix_min (n : nat) (s : string) :
  py_len (py_prefix n s) = (n `min` py_len s)%nat.
Proof.
  revert n. induction s as [|a r IH]; intros n; simpl; [lia|].
  destruct (is_continuation a) eqn:Ha; simpl; rewrite ?Ha.
  - apply IH.
  - destruct n as [|m]; simpl; rewrite ?Ha; [done|]. rewrite IH. lia.
Qed.

Lemma py_prefix_append (n : nat) (s : string) :
  ∃ rest, s = py_prefix n s +:+ rest.
Proof.
  revert n. induction s as [|a r IH]; intros n; simpl; [by exists ""|].
  destruct (is_continuation a).
  - destruct (IH n) as [rest Hrest]. exists rest.
    change (String a r = String a (py_prefix n r +:+ rest)). by f_equal.
  - destruct n as [|m]; [by exists (String a r)|].
    destruct (IH m) as [rest Hrest]. exists rest.
    change (String a r = String a (py_prefix m r +:+ rest)). by f_equal.
Qed.

(** A slice never changes what it keeps: slicing again is the identity. *)
Lemma py_prefix_idemp (n : nat) (s : string) :
  py_prefix n (py_prefix n s) = py_prefix n s.
Proof.
  revert n. induction s as [|a r IH]; intros n; simpl; [done|].
  destruct (is_continuation a) eqn:Ha; simpl; rewrite ?Ha.
  - by rewrite IH.
  - destruct n as [|m]; simpl; rewrite ?Ha; [done|]. by rewrite IH.
Qed.

Example py_prefix_ascii : py_prefix 3 "timeout" = "tim".
Proof. reflexivity. Qed.

(** Two characters of three bytes each, then ASCII. *)
Example py_prefix_multibyte : py_prefix 3 "⚠️ Connected" = "⚠️ ".
Proof. reflexivity. Qed.

(** ** The venue catalog *)

Lemma get_venues_sublist (vtype tag : option string) :
  get_venues vtype tag `sublist_of` SAMPLE_VENUES.
Proof.
  unfold get_venues.
  destruct (given tag); [etrans; [apply sublist_filter|]|];
    destruct (given vtype); try apply sublist_filter; done.
Qed.

Lemma elem_of_get_venues (vtype tag : option string) (v : Venue.t) :
  v ∈ get_venues vtype tag ↔
    v ∈ SAMPLE_VENUES
    ∧ (∀ t, given vtype = Some t → Venue.type v = t)
    ∧ (∀ g, given tag = Some g → g ∈ Venue.tags v).
Proof.
  unfold get_venues.
  destruct (given vtype) as [t|], (given tag) as [g|];
    rewrite ?list_elem_of_filter.
  - split.
    + intros (Hg & Ht & Hv). repeat split; [done|congruence|congruence].
    + intros (Hv & Ht & Hg). split; [by apply Hg|]. split; [by apply Ht|done].
  - split.
    + intros (Ht & Hv). repeat split; [done|congruence|done].
    + intros (Hv & Ht & _). split; [by apply Ht|done].
  - split.
    + intros (Hg & Hv). repeat split; [done|done|congruence].
    + intros (Hv & _ & Hg). split; [by apply Hg|done].
  - split; [by intros Hv; repeat split|by intros (Hv & _)].
Qed.

(** C2, as stated, fails: an empty type filter is given, the whole catalog
    comes back, and City Arena's type is not the empty string. *)
Lemma get_venues_empty_type_counterexample :
  ¬ (∀ v, v ∈ get_venues (Some "") None → Venue.type v = "").
Proof.
  intros H.
  assert (Hin : Venue.mk "v1" "City Arena" "court" ["football"; "basketball"]
                  "Downtown" (PyFloat "4.8") (PyFloat "1.1") 15
                  "https://images.unsplash.com/photo-1517649763962-0c623066013b"
                ∈ get_venues (Some "") None) by apply list_elem_of_here.
  apply H in Hin. discriminate Hin.
Qed.

(** C2 (amended): for every combination of optional type and tag filters
    the venue listing is a sub-sequence of the static catalog; a venue is
    returned exactly when it is in the catalog, its type equals the type
    filter when that filter is given and not empty, and its tag list
    contains the tag filter when that filter is given and not empty; when
    each filter is absent or empty the full catalog is returned. *)
Theorem get_venues_spec (vtype tag : option string) :
  get_venues vtype tag `sublist_of` SAMPLE_VENUES
  ∧ get_venues vtype tag ⊆ SAMPLE_VENUES
  ∧ (∀ v, v ∈ get_venues vtype tag ↔
       v ∈ SAMPLE_VENUES
       ∧ (∀ t, vtype = Some t → t ≠ "" → Venue.type v = t)
       ∧ (∀ g, tag = Some g → g ≠ "" → g ∈ Venue.tags v))
  ∧ ((vtype = None ∨ vtype = Some "") → (tag = None ∨ tag = Some "") →
       get_venues vtype tag = SAMPLE_VENUES).
Proof.
  split; [apply get_venues_sublist|].
  split; [intros v Hv; eapply elem_of_sublist; [done|apply get_venues_sublist]|].
  split.
  - intros v. rewrite elem_of_get_venues. split.
    + intros (Hv & Ht & Hg). split; [done|].
      split; intros x -> Hx; [apply Ht|apply Hg]; by apply given_Some.
    + intros (Hv & Ht & Hg). split; [done|].
      split; intros x [-> Hx]%given_Some; [by apply Ht|by apply Hg].
  - intros Ht Hg. apply given_None in Ht, Hg.
    unfold get_venues. by rewrite Ht, Hg.
Qed.

(** C4: the recovery recommendation is an envelope with the fixed title
    and at most three items, all of type recovery, taken from the front of
    the catalog's recovery venues, hence in catalog order; on the catalog
    as it stands they are Wellness Hub and Blue Pools. *)
Theorem recommend_recovery_spec :
  let items := Recommendation.items recommend_recovery in
  Recommendation.title recommend_recovery = "Top picks to recover"
  ∧ (length items ≤ 3)%nat
  ∧ Forall (λ v, Venue.type v = "recovery") items
  ∧ items `prefix_of` filter (λ v, Venue.type v = "recovery") SAMPLE_VENUES
  ∧ items `sublist_of` SAMPLE_VENUES
  ∧ Venue.id <$> items = ["v4"; "v5"].
Proof.
  cbv zeta. unfold recommend_recovery. cbn [Recommendation.items Recommendation.title].
  set (recovery := filter _ SAMPLE_VENUES).
  split; [done|].
  split; [apply firstn_le_length|].
  split.
  { apply list.Forall_forall. intros v Hv.
    apply (elem_of_sublist _ recovery) in Hv; [|apply sublist_take].
    by apply list_elem_of_filter in Hv as [? _]. }
  split; [apply prefix_take|].
  split; [etrans; [apply sublist_take|apply sublist_filter]|].
  reflexivity.
Qed.

(** ** Normalising identifiers *)

Lemma stringify_id_internal_absent (d : dict) : stringify_id d !! "_id" = None.
Proof.
  unfold stringify_id. destruct (d !! "_id") as [internal|] eqn:Hd; [|done].
  rewrite lookup_insert_ne by done. apply lookup_delete_eq.
Qed.

Lemma stringify_id_public (d : dict) (internal : value) :
  d !! "_id" = Some internal →
  stringify_id d !! "id" = Some (VStr (py_str internal)).
Proof. intros Hd. unfold stringify_id. rewrite Hd. apply lookup_insert_eq. Qed.

Lemma stringify_id_other (d : dict) (k : string) :
  k ≠ "_id" → k ≠ "id" → stringify_id d !! k = d !! k.
Proof.
  intros Hk Hk'. unfold stringify_id. destruct (d !! "_id"); [|done].
  rewrite lookup_insert_ne by done. by rewrite lookup_delete_ne.
Qed.

Lemma stringify_id_no_internal (d : dict) :
  d !! "_id" = None → stringify_id d = d.
Proof. intros Hd. unfold stringify_id. by rewrite Hd. Qed.

(** A [try] whose handler only assigns ends normally, whatever its body
    does. *)
Lemma try_except_assign_returns (body : Diagnostics.block unit)
    (f : py_exception → Diagnostics.t → Diagnostics.t) (r : Diagnostics.t) :
  fst (Diagnostics.try_except body (λ e, Diagnostics.assign (f e)) r) = inr ().
Proof.
  unfold Diagnostics.try_except, Diagnostics.assign.
  by destruct (body r) as [[e|[]] r'].
Qed.

(** ** The handlers, for every adapter *)

Section HandlerProperties.
Context {DB : Type} `{!Database DB}.

(** C1: when the read of the store fails, the games and the posts listings
    return the empty sequence and raise nothing, while the bookings listing
    raises a server error (status 500) that carries the failure's message. *)
Theorem listing_read_failure (db : option DB) (user_id : option string) :
  (∀ e, get_documents "game" ∅ db = inl e → list_games db = inr [])
  ∧ (∀ e, get_documents "socialpost" ∅ db = inl e → list_posts db = inr [])
  ∧ (∀ e, get_documents "booking" (booking_filter user_id) db = inl e →
       list_bookings user_id db = inl (HTTPException 500 (exc_str e))).
Proof.
  unfold list_games, list_posts, list_bookings.
  repeat split; intros e ->; reflexivity.
Qed.

(** C8: each listing returns the documents the store returned, in their
    order, each with its internal identifier replaced: the key [_id] is
    absent, the key [id] holds the identifier's string form, and every other
    field is as stored. *)
Theorem listing_normalises_ids (db : option DB) (user_id : option string) :
  (∀ docs, get_documents "booking" (booking_filter user_id) db = inr docs →
     list_bookings user_id db = inr (stringify_id <$> docs))
  ∧ (∀ docs, get_documents "game" ∅ db = inr docs →
       list_games db = inr (stringify_id <$> docs))
  ∧ (∀ docs, get_documents "socialpost" ∅ db = inr docs →
       list_posts db = inr (stringify_id <$> docs))
  ∧ (∀ d : dict,
       stringify_id d !! "_id" = None
       ∧ (∀ internal, d !! "_id" = Some internal →
            stringify_id d !! "id" = Some (VStr (py_str internal)))
       ∧ (∀ k, k ≠ "_id" → k ≠ "id" → stringify_id d !! k = d !! k)).
Proof.
  unfold list_games, list_posts, list_bookings.
  split; [by intros docs ->|].
  split; [by intros docs ->|].
  split; [by intros docs ->|].
  intros d. split; [apply stringify_id_internal_absent|].
  split; [apply stringify_id_public|apply stringify_id_other].
Qed.

(** C9: the diagnostics never raises: its outer [try] statement ends
    normally for every handle, and what it returns is the response that
    statement leaves.  Without a handle the status says the database is
    not available and no collection is listed.  A failure while probing is
    written into the status after a fixed label: what is written is the
    beginning of the exception's message, its first 50 characters, so the
    whole message when that has at most 50.  The collections are the first
    ten names the store lists. *)
Theorem test_database_never_raises (DATABASE_URL : option string)
    (db : option DB) :
  let initial :=
    Diagnostics.mk "✅ Running" "❌ Not Available" None None "Not Connected" [] in
  let handler := λ e : py_exception,
    Diagnostics.assign (Diagnostics.set_database
      ("❌ Error: " +:+ py_prefix 50 (exc_str e))) in
  let response := test_database DATABASE_URL db in
  Diagnostics.try_except (probe DATABASE_URL db) handler initial
    = (inr (), response)
  ∧ Diagnostics.backend response = "✅ Running"
  ∧ (length (Diagnostics.collections response) ≤ 10)%nat
  ∧ match db with
    | None =>
        Diagnostics.database response = "❌ Not Available"
        ∧ Diagnostics.collections response = []
        ∧ Diagnostics.connection_status response = "Not Connected"
        ∧ Diagnostics.database_url response = None
        ∧ Diagnostics.database_name response = None
    | Some h =>
        match db_name h, list_collection_names h with
        | inl e, _ =>
            Diagnostics.database response
              = "❌ Error: " +:+ py_prefix 50 (exc_str e)
            ∧ (py_len (py_prefix 50 (exc_str e)) ≤ 50)%nat
            ∧ Diagnostics.collections response = []
            ∧ Diagnostics.connection_status response = "Not Connected"
            ∧ (∃ shown rest,
                 Diagnostics.database response = "❌ Error: " +:+ shown
                 ∧ exc_str e = shown +:+ rest
                 ∧ py_len shown = (50 `min` py_len (exc_str e))%nat
                 ∧ ((py_len (exc_str e) ≤ 50)%nat → shown = exc_str e))
        | inr name, inl e =>
            Diagnostics.database response
              = "⚠️ Connected but Error: " +:+ py_prefix 50 (exc_str e)
            ∧ (py_len (py_prefix 50 (exc_str e)) ≤ 50)%nat
            ∧ Diagnostics.collections response = []
            ∧ Diagnostics.connection_status response = "Connected"
            ∧ (∃ shown rest,
                 Diagnostics.database response
                   = "⚠️ Connected but Error: " +:+ shown
                 ∧ exc_str e = shown +:+ rest
                 ∧ py_len shown = (50 `min` py_len (exc_str e))%nat
                 ∧ ((py_len (exc_str e) ≤ 50)%nat → shown = exc_str e))
        | inr name, inr names =>
            Diagnostics.database response = "✅ Connected & Working"
            ∧ Diagnostics.collections response = take 10 names
            ∧ Diagnostics.connection_status response = "Connected"
            ∧ Diagnostics.database_name response = Some name
        end
    end.
Proof.
  cbv zeta. split.
  { apply injective_projections; [|reflexivity].
    apply (try_except_assign_returns (probe DATABASE_URL db)
             (λ e, Diagnostics.set_database
                     ("❌ Error: " +:+ py_prefix 50 (exc_str e)))). }
  assert (Hshown : ∀ (label : string) (e : py_exception) (status : string),
    status = label +:+ py_prefix 50 (exc_str e) →
    ∃ shown rest,
      status = label +:+ shown
      ∧ exc_str e = shown +:+ rest
      ∧ py_len shown = (50 `min` py_len (exc_str e))%nat
      ∧ ((py_len (exc_str e) ≤ 50)%nat → shown = exc_str e)).
  { intros label e status ->.
    destruct (py_prefix_append 50 (exc_str e)) as [rest Hrest].
    exists (py_prefix 50 (exc_str e)), rest.
    split; [done|]. split; [done|].
    split; [apply py_len_prefix_min|apply py_prefix_short]. }
  unfold test_database, probe.
  destruct db as [h|]; [|cbn; repeat split; lia].
  unfold Diagnostics.try_except, mbind, block_bind, Diagnostics.bind,
    Diagnostics.assign, Diagnostics.call; cbn.
  destruct (db_name h) as [e|name]; cbn.
  { split; [done|]. split; [lia|]. split; [done|].
    split; [apply py_len_prefix|]. split; [done|]. split; [done|].
    by apply Hshown. }
  destruct (list_collection_names h) as [e|names]; cbn.
  { split; [done|]. split; [lia|]. split; [done|].
    split; [apply py_len_prefix|]. split; [done|]. split; [done|].
    by apply Hshown. }
  repeat split. apply firstn_le_length.
Qed.

End HandlerProperties.

(** ** The request models as dictionaries *)

Lemma BookingIn_dict_keys (p : BookingIn.t) :
  dom (BookingIn.dict p)
  = list_to_set (C := gset string)
      [ "user_id"; "venue_id"; "venue_name"; "venue_type"; "date";
        "start_time"; "end_time"; "slots"; "total_amount"; "share_to_social" ].
Proof.
  unfold BookingIn.dict. rewrite dom_list_to_map_L. reflexivity.
Qed.

Lemma GameIn_dict_keys (p : GameIn.t) :
  dom (GameIn.dict p)
  = list_to_set (C := gset string)
      [ "title"; "sport"; "visibility"; "host_user_id"; "max_players";
        "description" ].
Proof.
  unfold GameIn.dict. rewrite dom_list_to_map_L. reflexivity.
Qed.

Lemma PostIn_dict_keys (p : PostIn.t) :
  dom (PostIn.dict p)
  = list_to_set (C := gset string) [ "user_id"; "content"; "image" ].
Proof.
  unfold PostIn.dict. rewrite dom_list_to_map_L. reflexivity.
Qed.

(** The request models have no field for what the store or the schemas
    add: the lookups are decided by evaluation, the keys being literals. *)
Lemma BookingIn_dict_no_status (p : BookingIn.t) :
  BookingIn.dict p !! "status" = None.
Proof. reflexivity. Qed.

Lemma GameIn_dict_no_players (p : GameIn.t) :
  GameIn.dict p !! "players" = None.
Proof. reflexivity. Qed.


Lemma GameIn_dict_no_id (p : GameIn.t) :
  GameIn.dict p !! "_id" = None ∧ GameIn.dict p !! "id" = None.
Proof. split; reflexivity. Qed.


(** ** The store of the specification *)

Lemma documents_total (st : store) (c : string) (d : dict) :
  d ∈ collections st !!! c →
  ∃ docs, collections st !! c = Some docs ∧ d ∈ docs.
Proof.
  rewrite lookup_total_alt. destruct (collections st !! c) as [docs|]; simpl.
  - intros Hd. by exists docs.
  - by intros ?%elem_of_nil.
Qed.

Lemma store_Forall_total (P : dict → Prop) (st : store) (c : string) (d : dict) :
  store_Forall P st → d ∈ collections st !!! c → P d.
Proof. intros HP (docs & Hc & Hd)%documents_total. by eapply HP. Qed.

Lemma collections_insert_same (c : string) (data : dict) (st : store) :
  collections (store_insert c data st) !!! c
  = (collections st !!! c) ++ [<["_id" := VOid (Oid (next_oid st))]> data].
Proof. unfold store_insert; simpl. apply lookup_total_insert_eq. Qed.

Lemma collections_insert_other (c c' : string) (data : dict) (st : store) :
  c ≠ c' →
  collections (store_insert c data st) !!! c' = collections st !!! c'.
Proof. intros Hne. unfold store_insert; simpl. by apply lookup_total_insert_ne. Qed.

Lemma store_Forall_insert (P Q : dict → Prop) (c : string) (data : dict)
    (st : store) :
  store_Forall P st →
  (∀ d, P d → Q d) →
  Q (<["_id" := VOid (Oid (next_oid st))]> data) →
  store_Forall Q (store_insert c data st).
Proof.
  intros HP HPQ Hnew c' docs d Hc Hd. unfold store_insert in Hc; simpl in Hc.
  destruct (decide (c = c')) as [<-|Hne].
  - rewrite lookup_insert_eq in Hc. injection Hc as <-.
    apply elem_of_app in Hd as [Hd|Hd].
    + apply HPQ. by eapply store_Forall_total.
    + by apply list_elem_of_singleton in Hd as ->.
  - rewrite lookup_insert_ne in Hc by done. apply HPQ. by eapply HP.
Qed.

Lemma well_formed_empty (name : string) : well_formed (empty_store name).
Proof. intros c docs d Hc. simpl in Hc. by rewrite lookup_empty in Hc. Qed.

Lemma well_formed_insert (c : string) (data : dict) (st : store) :
  well_formed st → well_formed (store_insert c data st).
Proof.
  intros Hwf. eapply store_Forall_insert; [exact Hwf| |].
  - intros d (n & Hd & Hn). exists n. split; [done|]. simpl. lia.
  - exists (next_oid st). split; [apply lookup_insert_eq|]. simpl. lia.
Qed.

(** What a request does to a connected store, and to no connection. *)
Lemma after_connected (r : request) (st : store) :
  after r (Some st) = Some st
  ∨ ∃ c data, after r (Some st) = Some (store_insert c data st)
      ∧ ((∃ p, c = "booking" ∧ data = BookingIn.dict p)
         ∨ (∃ p, c = "game" ∧ data = GameIn.dict p)
         ∨ (∃ p, c = "socialpost" ∧ data = PostIn.dict p)).
Proof.
  destruct r as [| | | | |p| | | |p| |p|]; try (by left); right.
  - exists "booking", (BookingIn.dict p). split; [done|]. left. by exists p.
  - exists "game", (GameIn.dict p). split; [done|]. right; left. by exists p.
  - exists "socialpost", (PostIn.dict p). split; [done|]. right; right. by exists p.
Qed.

Lemma after_unconnected (r : request) : after r (None : option store) = None.
Proof. by destruct r. Qed.

Lemma reachable_well_formed (db : option store) :
  reachable db → ∀ st, db = Some st → well_formed st.
Proof.
  induction 1 as [|name|r db Hdb IH]; intros st Hst.
  - discriminate.
  - injection Hst as <-. apply well_formed_empty.
  - destruct db as [st0|]; [|by rewrite after_unconnected in Hst].
    destruct (after_connected r st0) as [Heq|(c & data & Heq & _)];
      rewrite Heq in Hst; injection Hst as <-.
    + by apply IH.
    + apply well_formed_insert. by apply IH.
Qed.

(** An invariant of the documents: it holds in every reachable store as
    soon as it holds of whatever the three creating handlers insert. *)
Lemma reachable_store_Forall (P : dict → Prop) :
  (∀ n p, P (<["_id" := VOid (Oid n)]> (BookingIn.dict p))) →
  (∀ n p, P (<["_id" := VOid (Oid n)]> (GameIn.dict p))) →
  (∀ n p, P (<["_id" := VOid (Oid n)]> (PostIn.dict p))) →
  ∀ db, reachable db → ∀ st, db = Some st → store_Forall P st.
Proof.
  intros Hb Hg Hp. induction 1 as [|name|r db Hdb IH]; intros st Hst.
  - discriminate.
  - injection Hst as <-. intros c docs d Hc. simpl in Hc.
    by rewrite lookup_empty in Hc.
  - destruct db as [st0|]; [|by rewrite after_unconnected in Hst].
    destruct (after_connected r st0) as [Heq|(c & data & Heq & Hdata)];
      rewrite Heq in Hst; injection Hst as <-.
    + by apply IH.
    + eapply store_Forall_insert; [by apply IH|done|].
      destruct Hdata as [(p & _ & ->)|[(p & _ & ->)|(p & _ & ->)]]; auto.
Qed.

(** ** Listings of the store of the specification *)

Lemma filter_empty_filter (docs : list dict) :
  filter (λ d : dict, (∅ : dict) ⊆ d) docs = docs.
Proof.
  induction docs as [|d docs IH]; [done|].
  rewrite filter_cons_True by apply map_empty_subseteq. by rewrite IH.
Qed.

Lemma list_bookings_store (user_id : option string) (st : store) :
  list_bookings user_id (Some st)
  = inr (stringify_id
           <$> filter (λ d, booking_filter user_id ⊆ d)
                 (collections st !!! "booking")).
Proof. reflexivity. Qed.

Lemma list_games_store (st : store) :
  list_games (Some st) = inr (stringify_id <$> collections st !!! "game").
Proof.
  unfold list_games; simpl. by rewrite filter_empty_filter.
Qed.

Lemma list_posts_store (st : store) :
  list_posts (Some st) = inr (stringify_id <$> collections st !!! "socialpost").
Proof.
  unfold list_posts; simpl. by rewrite filter_empty_filter.
Qed.

(** What a listing shows of a document as it was inserted. *)
Lemma stringify_id_stored (n : N) (data : dict) :
  data !! "_id" = None →
  stringify_id (<["_id" := VOid (Oid n)]> data) = <["id" := VStr (pretty n)]> data.
Proof.
  intros Hd. unfold stringify_id. rewrite lookup_insert_eq.
  rewrite delete_insert_eq. by rewrite delete_id.
Qed.






(** The same round trip, evaluated: the second booking gets identifier 1
    and is the only one listed for its user. *)
Example create_booking_then_list_evaluated :
  let p := BookingIn.new (Some "u2") "v3" "Groove Studio" "studio"
             "2025-12-05" "10:00" "11:00" 2 (PyFloat "20.0") (Some true) in
  let db := after (CreateBooking arena_booking) (Some (empty_store "sportshub")) in
  list_bookings (Some "u2") (after (CreateBooking p) db)
  = inr [ BookingIn.dict p ∪ {["id" := VStr "1"]} ].
Proof. reflexivity. Qed.

(** ** Games *)

(** C6: on a reachable store with no game, creating a game from only a
    title and a sport succeeds, and the games listing then has exactly one
    entry, with the submitted title and sport, visibility [public] and ten
    players at most. *)
Theorem create_game_then_list (title sport : string) (st : store) :
  collections st !!! "game" = [] →
  let p := GameIn.new title sport None None None None in
  ∃ gid st' d,
    create_game p (Some st) = (inr (GameIn.dict p ∪ {["id" := VStr gid]}), Some st')
    ∧ list_games (Some st') = inr [d]
    ∧ d !! "id" = Some (VStr gid)
    ∧ d !! "title" = Some (VStr title)
    ∧ d !! "sport" = Some (VStr sport)
    ∧ d !! "visibility" = Some (VStr "public")
    ∧ d !! "max_players" = Some (VInt 10).
Proof.
  intros Hempty p.
  exists (pretty (next_oid st)), (store_insert "game" (GameIn.dict p) st),
    (<["id" := VStr (pretty (next_oid st))]> (GameIn.dict p)).
  split; [reflexivity|].
  split.
  { rewrite list_games_store, collections_insert_same, Hempty. simpl.
    rewrite stringify_id_stored; [done|]. apply GameIn_dict_no_id. }
  split; [apply lookup_insert_eq|].
  repeat split; by rewrite lookup_insert_ne.
Qed.

Lemma create_game_then_list_witness :
  collections (empty_store "sportshub") !!! "game" = []
  ∧ ∃ gid st' d,
      create_game pickup_game (Some (empty_store "sportshub"))
        = (inr (GameIn.dict pickup_game ∪ {["id" := VStr gid]}), Some st')
      ∧ list_games (Some st') = inr [d]
      ∧ d !! "id" = Some (VStr gid)
      ∧ d !! "title" = Some (VStr "3v3 Pickup")
      ∧ d !! "sport" = Some (VStr "basketball")
      ∧ d !! "visibility" = Some (VStr "public")
      ∧ d !! "max_players" = Some (VInt 10).
Proof.
  split; [reflexivity|].
  apply (create_game_then_list "3v3 Pickup" "basketball" (empty_store "sportshub")).
  reflexivity.
Defined.

(** On the store of the specification nothing but the handlers' field
    maps is persisted, so a key no request model has is in no document of
    a reachable store, and in no listed record. *)
Lemma reachable_games_no_players (db : option store) :
  reachable db →
  (∀ st, db = Some st → store_Forall (λ d, d !! "players" = None) st)
  ∧ (∀ docs d, list_games db = inr docs → d ∈ docs → d !! "players" = None).
Proof.
  intros Hreach.
  assert (Hstored : ∀ st, db = Some st →
            store_Forall (λ d, d !! "players" = None) st).
  { apply reachable_store_Forall; [| | |done]; intros n p;
      by rewrite lookup_insert_ne. }
  split; [done|].
  intros docs d Hlist Hd.
  destruct db as [st|]; [|by injection Hlist as <-; apply elem_of_nil in Hd].
  rewrite list_games_store in Hlist. injection Hlist as <-.
  apply list_elem_of_fmap_1 in Hd as (d' & -> & Hd').
  rewrite stringify_id_other by done.
  apply (store_Forall_total (λ d, d !! "players" = None) st "game" d');
    [by apply Hstored|done].
Qed.

Lemma reachable_bookings_no_status (db : option store) :
  reachable db →
  (∀ st, db = Some st → store_Forall (λ d, d !! "status" = None) st)
  ∧ (∀ u docs d, list_bookings u db = inr docs → d ∈ docs →
       d !! "status" = None).
Proof.
  intros Hreach.
  assert (Hstored : ∀ st, db = Some st →
            store_Forall (λ d, d !! "status" = None) st).
  { apply reachable_store_Forall; [| | |done]; intros n p;
      by rewrite lookup_insert_ne. }
  split; [done|].
  intros u docs d Hlist Hd. destruct db as [st|]; [|done].
  rewrite list_bookings_store in Hlist. injection Hlist as <-.
  apply list_elem_of_fmap_1 in Hd as (d' & -> & Hd').
  apply list_elem_of_filter in Hd' as [_ Hd'].
  rewrite stringify_id_other by done.
  apply (store_Forall_total (λ d, d !! "status" = None) st "booking" d');
    [by apply Hstored|done].
Qed.

(** ** Fields the request models do not have *)

(** C7, as stated, fails: the record a created game comes back as carries
    no [players] field at all, so no list of player ids, empty or not. *)
Lemma create_game_players_counterexample :
  ¬ (∃ resp db',
       create_game pickup_game (Some (empty_store "sportshub")) = (inr resp, db')
       ∧ is_Some (resp !! "players")).
Proof.
  intros (resp & db' & Hcreate & v & Hv).
  injection Hcreate as <- _.
  rewrite lookup_union_l in Hv by reflexivity.
  by rewrite GameIn_dict_no_players in Hv.
Qed.

(** C5, as stated, fails: the record a created booking comes back as
    carries no [status] field. *)
Lemma create_booking_status_counterexample :
  ¬ (∃ resp db',
       create_booking arena_booking (Some (empty_store "sportshub"))
         = (inr resp, db')
       ∧ is_Some (resp !! "status")).
Proof.
  intros (resp & db' & Hcreate & v & Hv).
  injection Hcreate as <- _.
  rewrite lookup_union_l in Hv by reflexivity.
  by rewrite BookingIn_dict_no_status in Hv.
Qed.

Section CreatedRecords.
Context {DB : Type} `{!Database DB}.

(** A request changes the store through [create_document] only, with the
    field maps of [writes]. *)
Lemma after_writes (r : request) (db : option DB) :
  after r db = foldl (λ db w, snd (create_document w.1 w.2 db)) db (writes r).
Proof.
  destruct r as [| | | | |p| | | |p| |p|]; try reflexivity; simpl.
  - unfold create_booking. by destruct (create_document _ _ _) as [[e|gid] db'].
  - unfold create_game. by destruct (create_document _ _ _) as [[e|gid] db'].
  - unfold create_post. by destruct (create_document _ _ _) as [[e|pid] db'].
Qed.

Lemma writes_payload (r : request) (c : string) (data : dict) :
  (c, data) ∈ writes r →
  (∃ p, data = BookingIn.dict p) ∨ (∃ p, data = GameIn.dict p)
  ∨ (∃ p, data = PostIn.dict p).
Proof.
  destruct r as [| | | | |p| | | |p| |p|]; simpl;
    try (by intros ?%elem_of_nil); intros [= -> ->]%list_elem_of_singleton.
  - left. by exists p.
  - right; left. by exists p.
  - right; right. by exists p.
Qed.

(** C7 (amended): no game record created or listed through the exposed
    operations is given a [players] field.  The request model has none, so
    the record a creation answers with has none; no exposed operation
    hands the store a field map with one, and the store changes through
    those field maps only; and a listing shows a [players] field only if
    the stored document has it. *)
Theorem games_carry_no_players :
  (∀ p (db db' : option DB) resp,
     create_game p db = (inr resp, db') → resp !! "players" = None)
  ∧ (∀ r (db : option DB),
       after r db
       = foldl (λ db w, snd (create_document w.1 w.2 db)) db (writes r))
  ∧ (∀ r c data, (c, data) ∈ writes r → data !! "players" = None)
  ∧ (∀ (db : option DB) docs listed d,
       get_documents "game" ∅ db = inr docs →
       (∀ d', d' ∈ docs → d' !! "players" = None) →
       list_games db = inr listed → d ∈ listed → d !! "players" = None).
Proof.
  split; [|split; [exact after_writes|split]].
  - intros p db db' resp Hcreate. unfold create_game in Hcreate.
    destruct (create_document _ _ _) as [[e|gid] db'']; [done|].
    injection Hcreate as <- _.
    rewrite lookup_union_l by reflexivity. apply GameIn_dict_no_players.
  - intros r c data [(p & ->)|[(p & ->)|(p & ->)]]%writes_payload; reflexivity.
  - intros db docs listed d Hread Hdocs Hlist Hd. unfold list_games in Hlist.
    rewrite Hread in Hlist. injection Hlist as <-.
    apply list_elem_of_fmap_1 in Hd as (d' & -> & Hd').
    rewrite stringify_id_other by done. by apply Hdocs.
Qed.

(** C5 (amended): no booking record created through the booking-creation
    operation carries a [status] field.  The request model has none, so
    the record a creation answers with holds the submitted fields and no
    [status]; no exposed operation hands the store a field map with one,
    and the store changes through those field maps only; and a listing
    shows a [status] field only if the stored document has it.  The
    default [upcoming] is declared by the [Booking] schema only, which no
    handler applies. *)
Theorem created_booking_has_no_status :
  (∀ p (db db' : option DB) resp,
     create_booking p db = (inr resp, db') →
     resp !! "status" = None
     ∧ ∀ k v, BookingIn.dict p !! k = Some v → resp !! k = Some v)
  ∧ (∀ r (db : option DB),
       after r db
       = foldl (λ db w, snd (create_document w.1 w.2 db)) db (writes r))
  ∧ (∀ r c data, (c, data) ∈ writes r → data !! "status" = None)
  ∧ (∀ u (db : option DB) docs listed d,
       get_documents "booking" (booking_filter u) db = inr docs →
       (∀ d', d' ∈ docs → d' !! "status" = None) →
       list_bookings u db = inr listed → d ∈ listed → d !! "status" = None).
Proof.
  split; [|split; [exact after_writes|split]].
  - intros p db db' resp Hcreate. unfold create_booking in Hcreate.
    destruct (create_document _ _ _) as [[e|gid] db'']; [done|].
    injection Hcreate as <- _. split.
    + rewrite lookup_union_l by reflexivity. apply BookingIn_dict_no_status.
    + intros k v Hk. by apply lookup_union_Some_l.
  - intros r c data [(p & ->)|[(p & ->)|(p & ->)]]%writes_payload; reflexivity.
  - intros u db docs listed d Hread Hdocs Hlist Hd. unfold list_bookings in Hlist.
    rewrite Hread in Hlist. injection Hlist as <-.
    apply list_elem_of_fmap_1 in Hd as (d' & -> & Hd').
    rewrite stringify_id_other by done. by apply Hdocs.
Qed.

End CreatedRecords.

Lemma games_carry_no_players_witness :
  let db := Some (empty_store "sportshub") in
  let resp := GameIn.dict pickup_game ∪ {["id" := VStr "0"]} in
  create_game pickup_game db
    = (inr resp, Some (store_insert "game" (GameIn.dict pickup_game)
                         (empty_store "sportshub")))
  ∧ resp !! "players" = None
  ∧ ("game", GameIn.dict pickup_game) ∈ writes (CreateGame pickup_game)
  ∧ GameIn.dict pickup_game !! "players" = None.
Proof.
  cbv zeta.
  destruct (games_carry_no_players (DB := store))
    as (Hresponse & _ & Hwrites & _).
  assert (Hcreate :
    create_game pickup_game (Some (empty_store "sportshub"))
    = (inr (GameIn.dict pickup_game ∪ {["id" := VStr "0"]}),
       Some (store_insert "game" (GameIn.dict pickup_game)
               (empty_store "sportshub")))) by reflexivity.
  assert (Hin : ("game", GameIn.dict pickup_game)
                ∈ writes (CreateGame pickup_game))
    by apply list_elem_of_here.
  split; [exact Hcreate|].
  split; [exact (Hresponse _ _ _ _ Hcreate)|].
  split; [exact Hin|].
  exact (Hwrites _ _ _ Hin).
Defined.

Lemma created_booking_has_no_status_witness :
  let db := Some (empty_store "sportshub") in
  let resp := BookingIn.dict arena_booking ∪ {["id" := VStr "0"]} in
  create_booking arena_booking db
    = (inr resp, Some (store_insert "booking" (BookingIn.dict arena_booking)
                         (empty_store "sportshub")))
  ∧ resp !! "status" = None
  ∧ resp !! "venue_name" = Some (VStr "City Arena")
  ∧ ("booking", BookingIn.dict arena_booking)
      ∈ writes (CreateBooking arena_booking)
  ∧ BookingIn.dict arena_booking !! "status" = None.
Proof.
  cbv zeta.
  destruct (created_booking_has_no_status (DB := store))
    as (Hresponse & _ & Hwrites & _).
  assert (Hcreate :
    create_booking arena_booking (Some (empty_store "sportshub"))
    = (inr (BookingIn.dict arena_booking ∪ {["id" := VStr "0"]}),
       Some (store_insert "booking" (BookingIn.dict arena_booking)
               (empty_store "sportshub")))) by reflexivity.
  assert (Hin : ("booking", BookingIn.dict arena_booking)
                ∈ writes (CreateBooking arena_booking))
    by apply list_elem_of_here.
  destruct (Hresponse _ _ _ _ Hcreate) as [Hstatus Hfields].
  split; [exact Hcreate|].
  split; [exact Hstatus|].
  split; [by apply Hfields|].
  split; [exact Hin|].
  exact (Hwrites _ _ _ Hin).
Defined.

(** ** Failing reads, for concrete handles *)

Lemma listing_read_failure_witness :
  let db : option string := Some "connection reset" in
  get_documents "game" ∅ db = inl (Exception "connection reset")
  ∧ list_games db = inr []
  ∧ list_posts db = inr []
  ∧ list_bookings (Some "u1") db = inl (HTTPException 500 "connection reset").
Proof.
  cbv zeta.
  destruct (listing_read_failure (Some "connection reset" : option string)
              (Some "u1")) as (Hgames & Hposts & Hbookings).
  split; [reflexivity|].
  split; [by apply (Hgames (Exception "connection reset"))|].
  split; [by apply (Hposts (Exception "connection reset"))|].
  by apply (Hbookings (Exception "connection reset")).
Defined.

(** The store of the specification, unreachable. *)
Example listing_unreachable_store :
  list_games (None : option store) = inr []
  ∧ list_posts (None : option store) = inr []
  ∧ list_bookings None (None : option store)
    = inl (HTTPException 500 "Database not available").
Proof. repeat split. Qed.

Lemma listing_normalises_ids_witness :
  let st := store_insert "booking" (BookingIn.dict arena_booking)
              (empty_store "sportshub") in
  let doc := <["_id" := VOid (Oid 0)]> (BookingIn.dict arena_booking) in
  get_documents "booking" (booking_filter (Some "u1")) (Some st) = inr [doc]
  ∧ list_bookings (Some "u1") (Some st) = inr [stringify_id doc]
  ∧ stringify_id doc !! "_id" = None
  ∧ stringify_id doc !! "id" = Some (VStr "0")
  ∧ stringify_id doc !! "venue_id" = doc !! "venue_id".
Proof.
  cbv zeta.
  set (st := store_insert "booking" (BookingIn.dict arena_booking)
               (empty_store "sportshub")).
  set (doc := <["_id" := VOid (Oid 0)]> (BookingIn.dict arena_booking)).
  assert (Hread : get_documents "booking" (booking_filter (Some "u1")) (Some st)
                  = inr [doc]) by reflexivity.
  destruct (listing_normalises_ids (Some st) (Some "u1"))
    as (Hbookings & _ & _ & Hdoc).
  destruct (Hdoc doc) as (Hinternal & Hpublic & Hother).
  split; [exact Hread|].
  split; [exact (Hbookings [doc] Hread)|].
  split; [exact Hinternal|].
  split; [exact (Hpublic (VOid (Oid 0)) (lookup_insert_eq _ _ _))|].
  by apply Hother.
Defined.

(** ** Diagnostics, evaluated *)

Example test_database_unconnected :
  test_database (Some "mongodb://localhost") (None : option store)
  = Diagnostics.mk "✅ Running" "❌ Not Available" None None "Not Connected" [].
Proof. reflexivity. Qed.

(** The handle is there and its name cannot be read: the outer handler
    reports it, after the configuration line was already written. *)
Example test_database_lost_handle :
  test_database None (Some "connection reset by peer" : option string)
  = Diagnostics.mk "✅ Running" "❌ Error: connection reset by peer"
      (Some "❌ Not Set") None "Not Connected" [].
Proof. reflexivity. Qed.

Example test_database_connected :
  test_database (Some "mongodb://localhost")
    (after (CreateGame pickup_game) (Some (empty_store "sportshub")))
  = Diagnostics.mk "✅ Running" "✅ Connected & Working" (Some "✅ Set")
      (Some "sportshub") "Connected" ["game"].
Proof. reflexivity. Qed.

(** A message of sixty characters is cut to fifty. *)
Example py_prefix_fifty :
  py_prefix 50 "0123456789012345678901234567890123456789012345678901234567890"
  = "01234567890123456789012345678901234567890123456789".
Proof. reflexivity. Qed.

(** ** Empty query parameters *)

(** C10: an empty-string query parameter is an absent filter.  For the
    venues, an empty type or tag filter filters nothing, and with both
    empty the full catalog is returned.  For the bookings, an empty
    [user_id] queries the store with the empty filter, not with the filter
    on the empty [user_id], so whatever the adapter the answer is that of
    the listing without a [user_id]: all bookings. *)
Theorem empty_parameter_is_no_filter :
  (∀ tag, get_venues (Some "") tag = get_venues None tag)
  ∧ (∀ vtype, get_venues vtype (Some "") = get_venues vtype None)
  ∧ get_venues (Some "") (Some "") = SAMPLE_VENUES
  ∧ booking_filter (Some "") = ∅
  ∧ booking_filter (Some "") ≠ {["user_id" := VStr ""]}
  ∧ (∀ (DB : Type) (adapter : Database DB) (db : option DB),
       list_bookings (Some "") db = list_bookings None db
       ∧ ∀ docs, get_documents "booking" ∅ db = inr docs →
           list_bookings (Some "") db = inr (stringify_id <$> docs)).
Proof.
  split; [done|]. split; [done|]. split; [done|]. split; [done|].
  split.
  - intros Heq. apply (f_equal (λ m : dict, m !! "user_id")) in Heq.
    by rewrite lookup_singleton_eq in Heq.
  - intros DB adapter db. split; [done|].
    intros docs Hread. unfold list_bookings.
    change (booking_filter (Some "")) with (∅ : dict). by rewrite Hread.
Qed.

(** On the store of the specification the empty filter matches every
    document: the listing for the empty [user_id] is every persisted
    booking. *)
Lemma list_bookings_empty_user_id_store (st : store) :
  list_bookings (Some "") (Some st)
  = inr (stringify_id <$> collections st !!! "booking").
Proof.
  rewrite list_bookings_store.
  change (booking_filter (Some "")) with (∅ : dict).
  by rewrite filter_empty_filter.
Qed.

(** Two bookings, one of them made with an empty [user_id]: the listing
    for the empty [user_id] shows both, not only the second. *)
Example list_bookings_empty_user_id :
  let anonymous := BookingIn.new (Some "") "v2" "Hoops Central" "court"
                     "2025-12-01" "09:00" "09:30" 1 (PyFloat "12.0") None in
  let db := after (CreateBooking anonymous)
              (after (CreateBooking arena_booking)
                 (Some (empty_store "sportshub"))) in
  list_bookings (Some "") db
  = inr [ BookingIn.dict arena_booking ∪ {["id" := VStr "0"]};
          BookingIn.dict anonymous ∪ {["id" := VStr "1"]} ].
Proof. reflexivity. Qed.

(** ** Posts *)

(** A post made without a user: the listing shows it with its identifier
    under [id], its absent fields kept as [None]. *)
Example create_post_then_list :
  list_posts (after (CreatePost hello_post) (Some (empty_store "sportshub")))
  = inr [ PostIn.dict hello_post ∪ {["id" := VStr "0"]} ]
  ∧ (PostIn.dict hello_post ∪ {["id" := VStr "0"]}) !! "user_id" = Some VNone.
Proof. split; reflexivity. Qed.

(** * Further properties of the catalogs *)

Lemma filter_ext_elem_of {A : Type} (P Q : A → Prop)
    `{!∀ x, Decision (P x)} `{!∀ x, Decision (Q x)} (l : list A) :
  (∀ x, x ∈ l → (P x ↔ Q x)) → filter P l = filter Q l.
Proof.
  induction l as [|x l IH]; intros Hext; [done|].
  rewrite !filter_cons.
  rewrite IH by (intros y Hy; apply Hext; by right).
  pose proof (Hext x (list_elem_of_here _ _)) as [HPQ HQP].
  destruct (decide (P x)) as [HP|HP], (decide (Q x)) as [HQ|HQ]; try done.
  - by destruct HQ; apply HPQ.
  - by destruct HP; apply HQP.
Qed.

Lemma elem_of_get_events (category : option string) (e : Event.t) :
  e ∈ get_events category ↔
    e ∈ SAMPLE_EVENTS ∧ (∀ c, given category = Some c → Event.category e = c).
Proof.
  unfold get_events. destruct (given category) as [c|].
  - rewrite list_elem_of_filter. split.
    + intros [Hc He]. split; [done|congruence].
    + intros [He Hc]. split; [by apply Hc|done].
  - split; [by intros He; split|by intros [He _]].
Qed.

Lemma get_events_sublist (category : option string) :
  get_events category `sublist_of` SAMPLE_EVENTS.
Proof.
  unfold get_events. destruct (given category); [apply sublist_filter|done].
Qed.

(** X1: the event listing is a sub-sequence of the static catalog; an
    event is returned exactly when it is in the catalog and, when the
    category filter is given and not empty, its category equals the filter
    (exact match); an absent or empty filter returns the whole catalog. *)
Theorem get_events_spec (category : option string) :
  get_events category `sublist_of` SAMPLE_EVENTS
  ∧ (∀ e, e ∈ get_events category ↔
       e ∈ SAMPLE_EVENTS
       ∧ (∀ c, category = Some c → c ≠ "" → Event.category e = c))
  ∧ (category = None ∨ category = Some "" →
       get_events category = SAMPLE_EVENTS).
Proof.
  split; [apply get_events_sublist|]. split.
  - intros e. rewrite elem_of_get_events. split.
    + intros [He Hc]. split; [done|].
      intros c -> Hne. apply Hc. by apply given_Some.
    + intros [He Hc]. split; [done|].
      intros c [-> Hne]%given_Some. by apply Hc.
  - intros Hc%given_None. unfold get_events. by rewrite Hc.
Qed.

Example get_events_dance :
  Event.id <$> get_events (Some "dance") = ["e2"].
Proof. reflexivity. Qed.

Lemma filter_all {A : Type} (P : A → Prop) `{!∀ x, Decision (P x)}
    (l : list A) :
  (∀ x, x ∈ l → P x) → filter P l = l.
Proof.
  induction l as [|x l IH]; intros HP; [done|].
  rewrite filter_cons_True by (apply HP; by left).
  rewrite IH; [done|]. intros y Hy. apply HP. by right.
Qed.

(** X2: the two venue filters compose as an intersection, in either
    order: the listing for a type and a tag is the listing for the type
    restricted to the venues of the listing for the tag, and the other way
    round, with the catalog's order kept. *)
Theorem get_venues_filters_compose (vtype tag : option string) :
  (∀ v, v ∈ get_venues vtype tag ↔
     v ∈ get_venues vtype None ∧ v ∈ get_venues None tag)
  ∧ get_venues vtype tag
    = filter (λ v, v ∈ get_venues None tag) (get_venues vtype None)
  ∧ get_venues vtype tag
    = filter (λ v, v ∈ get_venues vtype None) (get_venues None tag).
Proof.
  split.
  { intros v. rewrite !elem_of_get_venues. split.
    - intros (Hv & Ht & Hg). by repeat split.
    - intros ((Hv & Ht & _) & (_ & _ & Hg)). by repeat split. }
  unfold get_venues.
  destruct (given vtype) as [t|], (given tag) as [g|]; cbn [given]; split.
  - apply filter_ext_elem_of. intros v [_ Hv]%list_elem_of_filter.
    rewrite list_elem_of_filter. by intuition.
  - rewrite !list_filter_filter. apply filter_ext_elem_of. intros v Hv.
    rewrite list_elem_of_filter. by intuition.
  - symmetry. by apply filter_all; intros v [_ Hv]%list_elem_of_filter.
  - apply filter_ext_elem_of. intros v Hv.
    rewrite list_elem_of_filter. by intuition.
  - apply filter_ext_elem_of. intros v Hv.
    rewrite list_elem_of_filter. by intuition.
  - symmetry. by apply filter_all; intros v [_ Hv]%list_elem_of_filter.
  - symmetry. by apply filter_all.
  - symmetry. by apply filter_all.
Qed.

(** X3: a filter value that matches nothing gives the empty list, not an
    error: a non-empty type no catalog venue has, a non-empty tag no
    catalog venue carries, a non-empty category no catalog event has.  The
    match is exact, so a value that differs in case matches nothing. *)
Theorem unmatched_filter_gives_empty :
  (∀ t tag, t ≠ "" → t ∉ Venue.type <$> SAMPLE_VENUES →
     get_venues (Some t) tag = [])
  ∧ (∀ vtype g, g ≠ "" → (∀ v, v ∈ SAMPLE_VENUES → g ∉ Venue.tags v) →
       get_venues vtype (Some g) = [])
  ∧ (∀ c, c ≠ "" → c ∉ Event.category <$> SAMPLE_EVENTS →
       get_events (Some c) = []).
Proof.
  split; [|split].
  - intros t tag Hne Ht. apply elem_of_nil_inv. intros v Hv.
    apply elem_of_get_venues in Hv as (Hv & Htype & _).
    apply Ht. rewrite <- (Htype t) by by apply given_Some.
    by apply list_elem_of_fmap_2.
  - intros vtype g Hne Hg. apply elem_of_nil_inv. intros v Hv.
    apply elem_of_get_venues in Hv as (Hv & _ & Htag).
    apply (Hg v Hv), Htag. by apply given_Some.
  - intros c Hne Hc. apply elem_of_nil_inv. intros e He.
    apply elem_of_get_events in He as (He & Hcat).
    apply Hc. rewrite <- (Hcat c) by by apply given_Some.
    by apply list_elem_of_fmap_2.
Qed.

Lemma unmatched_filter_gives_empty_witness :
  get_venues (Some "Court") None = []
  ∧ get_venues (Some "court") (Some "yoga") = []
  ∧ get_events (Some "other") = [].
Proof.
  destruct unmatched_filter_gives_empty as (Htype & Htag & Hcategory).
  split; [|split].
  - apply Htype; [done|]. by apply (bool_decide_unpack _).
  - apply Htag; [done|]. apply list.Forall_forall.
    by apply (bool_decide_unpack _).
  - apply Hcategory; [done|]. by apply (bool_decide_unpack _).
Defined.

(** X4: no listing of a catalog returns an entry twice: whatever the
    filters, the ids of the returned venues, and of the returned events,
    are pairwise distinct. *)
Theorem catalog_listings_have_distinct_ids :
  (∀ vtype tag, NoDup (Venue.id <$> get_venues vtype tag))
  ∧ (∀ category, NoDup (Event.id <$> get_events category)).
Proof.
  split.
  - intros vtype tag.
    apply (sublist_NoDup _ (Venue.id <$> SAMPLE_VENUES));
      [by apply (bool_decide_unpack _)|].
    apply fmap_sublist, get_venues_sublist.
  - intros category.
    apply (sublist_NoDup _ (Event.id <$> SAMPLE_EVENTS));
      [by apply (bool_decide_unpack _)|].
    apply fmap_sublist, get_events_sublist.
Qed.

(** * Further properties of the handlers *)

(** X7: the loop body of the listings leaves a document without [_id] as
    it is, adding no [id]; applied to its own result it changes nothing;
    and on a document with [_id] the keys of the result are those of the
    document with [_id] taken out and [id] put in. *)
Theorem stringify_id_edge_cases (d : dict) :
  (d !! "_id" = None → stringify_id d = d)
  ∧ stringify_id (stringify_id d) = stringify_id d
  ∧ (is_Some (d !! "_id") →
       dom (stringify_id d) = {["id"]} ∪ dom d ∖ {["_id"]}).
Proof.
  split; [apply stringify_id_no_internal|]. split.
  - apply stringify_id_no_internal, stringify_id_internal_absent.
  - intros [internal Hd]. unfold stringify_id. rewrite Hd.
    by rewrite dom_insert_L, dom_delete_L.
Qed.

Lemma stringify_id_edge_cases_witness :
  let stored : dict := {["_id" := VOid (Oid 7)]} ∪ PostIn.dict hello_post in
  stringify_id (PostIn.dict hello_post) = PostIn.dict hello_post
  ∧ stringify_id (stringify_id stored) = stringify_id stored
  ∧ dom (stringify_id stored) = {["id"]} ∪ dom stored ∖ {["_id"]}.
Proof.
  cbv zeta.
  destruct (stringify_id_edge_cases (PostIn.dict hello_post)) as (Hsame & _ & _).
  destruct (stringify_id_edge_cases
              ({["_id" := VOid (Oid 7)]} ∪ PostIn.dict hello_post))
    as (_ & Hidem & Hdom).
  split; [by apply Hsame|]. split; [exact Hidem|].
  apply Hdom. by exists (VOid (Oid 7)).
Defined.

Section FurtherHandlerProperties.
Context {DB : Type} `{!Database DB}.

(** X5: a creating handler raises exactly when [create_document] raises,
    and adds no failure of its own: every error it raises is a server
    error (status 500) whose detail is the whole message of an exception
    [create_document] raised on that payload's field map, with the store
    as the adapter left it; and each such exception is raised on as that
    error. *)
Theorem create_raises_iff_adapter_raises (db db' : option DB)
    (err : http_error) :
  (∀ p, create_booking p db = (inl err, db') ↔
     ∃ e, create_document "booking" (BookingIn.dict p) db = (inl e, db')
          ∧ err = HTTPException 500 (exc_str e))
  ∧ (∀ p, create_game p db = (inl err, db') ↔
       ∃ e, create_document "game" (GameIn.dict p) db = (inl e, db')
            ∧ err = HTTPException 500 (exc_str e))
  ∧ (∀ p, create_post p db = (inl err, db') ↔
       ∃ e, create_document "socialpost" (PostIn.dict p) db = (inl e, db')
            ∧ err = HTTPException 500 (exc_str e)).
Proof.
  unfold create_booking, create_game, create_post.
  repeat split.
  all: try (destruct (create_document _ _ _) as [[e|gid] db''];
            intros Hraise; simplify_eq; by eexists).
  all: intros (e & Hadapter & ->); by rewrite Hadapter.
Qed.

(** X6: when [create_document] returns an identifier, each creating
    handler answers with a record whose [id] is that identifier as the
    adapter returned it, whose other fields are the payload's, [None]
    values included, and whose keys are the payload's plus [id]; the store
    is as the adapter left it. *)
Theorem create_success_response (db db' : option DB) (gid : string) :
  (∀ p, create_document "booking" (BookingIn.dict p) db = (inr gid, db') →
     ∃ resp, create_booking p db = (inr resp, db')
       ∧ resp !! "id" = Some (VStr gid)
       ∧ (∀ k, k ≠ "id" → resp !! k = BookingIn.dict p !! k)
       ∧ dom resp = {["id"]} ∪ dom (BookingIn.dict p))
  ∧ (∀ p, create_document "game" (GameIn.dict p) db = (inr gid, db') →
       ∃ resp, create_game p db = (inr resp, db')
         ∧ resp !! "id" = Some (VStr gid)
         ∧ (∀ k, k ≠ "id" → resp !! k = GameIn.dict p !! k)
         ∧ dom resp = {["id"]} ∪ dom (GameIn.dict p))
  ∧ (∀ p, create_document "socialpost" (PostIn.dict p) db = (inr gid, db') →
       ∃ resp, create_post p db = (inr resp, db')
         ∧ resp !! "id" = Some (VStr gid)
         ∧ (∀ k, k ≠ "id" → resp !! k = PostIn.dict p !! k)
         ∧ dom resp = {["id"]} ∪ dom (PostIn.dict p)).
Proof.
  unfold create_booking, create_game, create_post.
  repeat split; intros p ->; eexists; (split; [reflexivity|]);
    (split; [by rewrite lookup_union_r by reflexivity;
                apply lookup_singleton_eq|]);
    (split; [|by rewrite dom_union_L, dom_singleton_L, (comm_L (∪))]);
    intros k Hk; apply lookup_union_l; by apply lookup_singleton_ne.
Qed.

(** X8: the diagnostics reads [DATABASE_URL] for its presence only.  The
    field [database_url] of the response is never the value: it is absent
    or one of two fixed texts.  For one and the same handle the whole
    response depends on the variable only through whether it is set to a
    non-empty value, an empty value counts as not set, and without a
    handle the response does not depend on it at all.  What the handle
    itself puts into its name or into the message of its exceptions is not
    covered. *)
Theorem test_database_hides_configuration (db : option DB) :
  (∀ url, Diagnostics.database_url (test_database url db)
          ∈ [None; Some "✅ Set"; Some "❌ Not Set"])
  ∧ (∀ url url', url ≠ "" → url' ≠ "" →
       test_database (Some url) db = test_database (Some url') db)
  ∧ test_database (Some "") db = test_database None db
  ∧ (∀ url url', test_database url (None : option DB)
                 = test_database url' (None : option DB)).
Proof.
  split; [|split; [|split; [reflexivity|reflexivity]]].
  - intros url. unfold test_database, probe.
    destruct db as [h|]; [|by left].
    unfold Diagnostics.try_except, mbind, block_bind, Diagnostics.bind,
      Diagnostics.assign, Diagnostics.call; cbn.
    destruct (db_name h) as [e|name]; cbn;
      [|destruct (list_collection_names h) as [e|names]; cbn];
      destruct (given url); set_solver.
  - intros url url' Hurl Hurl'. unfold test_database, probe.
    destruct db as [h|]; [|reflexivity].
    assert (Hgiven : ∀ u, u ≠ "" → given (Some u) = Some u).
    { intros u Hu. by apply given_Some. }
    by rewrite (Hgiven url Hurl), (Hgiven url' Hurl').
Qed.

(** X9: when probing the handle fails, the message written into the
    status after the label is the beginning of the exception's message:
    its first 50 characters, the whole message when that has at most 50. *)
Theorem diagnostics_message_is_prefix (DATABASE_URL : option string) (h : DB)
    (e : py_exception) :
  db_name h = inl e
  ∨ (∃ name, db_name h = inr name) ∧ list_collection_names h = inl e →
  ∃ shown rest,
    Diagnostics.database (test_database DATABASE_URL (Some h))
      = match db_name h with
        | inl _ => "❌ Error: "
        | inr _ => "⚠️ Connected but Error: "
        end +:+ shown
    ∧ exc_str e = shown +:+ rest
    ∧ py_len shown = (50 `min` py_len (exc_str e))%nat
    ∧ ((py_len (exc_str e) ≤ 50)%nat → shown = exc_str e).
Proof.
  intros Hfail.
  destruct (py_prefix_append 50 (exc_str e)) as [rest Hrest].
  exists (py_prefix 50 (exc_str e)), rest.
  split; [|split; [done|split; [apply py_len_prefix_min|apply py_prefix_short]]].
  unfold test_database, probe.
  unfold Diagnostics.try_except, mbind, block_bind, Diagnostics.bind,
    Diagnostics.assign, Diagnostics.call; cbn.
  destruct Hfail as [Hname|[[name Hname] Hnames]].
  - by rewrite Hname.
  - by rewrite Hname, Hnames.
Qed.

End FurtherHandlerProperties.

Lemma create_raises_iff_adapter_raises_witness :
  let db : option string := Some "write refused" in
  create_booking arena_booking db
    = (inl (HTTPException 500 "write refused"), db)
  ∧ create_game pickup_game db = (inl (HTTPException 500 "write refused"), db)
  ∧ (∃ e, create_document "socialpost" (PostIn.dict hello_post) db = (inl e, db)
          ∧ HTTPException 500 "write refused" = HTTPException 500 (exc_str e)).
Proof.
  cbv zeta.
  destruct (create_raises_iff_adapter_raises
              (Some "write refused" : option string) (Some "write refused")
              (HTTPException 500 "write refused"))
    as (Hbooking & Hgame & Hpost).
  split; [|split].
  - apply Hbooking. by exists (Exception "write refused").
  - apply Hgame. by exists (Exception "write refused").
  - by apply Hpost.
Defined.

(** The store of the specification, unreachable: every creation fails. *)
Example create_unreachable_store :
  create_post hello_post (None : option store)
  = (inl (HTTPException 500 "Database not available"), None).
Proof. reflexivity. Qed.

Lemma create_success_response_witness :
  let db := Some (empty_store "sportshub") in
  ∃ resp,
    create_post hello_post db
      = (inr resp, Some (store_insert "socialpost" (PostIn.dict hello_post)
                           (empty_store "sportshub")))
    ∧ resp !! "id" = Some (VStr "0")
    ∧ (∀ k, k ≠ "id" → resp !! k = PostIn.dict hello_post !! k)
    ∧ dom resp = {["id"]} ∪ dom (PostIn.dict hello_post).
Proof.
  cbv zeta.
  destruct (create_success_response (Some (empty_store "sportshub"))
              (Some (store_insert "socialpost" (PostIn.dict hello_post)
                       (empty_store "sportshub"))) "0")
    as (_ & _ & Hpost).
  by apply Hpost.
Defined.

Lemma diagnostics_message_is_prefix_witness :
  let message :=
    "connection to the replica set was reset by the peer while listing" in
  ∃ shown rest,
    Diagnostics.database (test_database None (Some message : option string))
      = "❌ Error: " +:+ shown
    ∧ message = shown +:+ rest
    ∧ py_len shown = 50%nat
    ∧ ((py_len message ≤ 50)%nat → shown = message).
Proof.
  cbv zeta.
  exact (diagnostics_message_is_prefix None
           "connection to the replica set was reset by the peer while listing"
           (Exception
              "connection to the replica set was reset by the peer while listing")
           (or_introl eq_refl)).
Defined.

(** A short message is shown whole, a long one is cut after its fiftieth
    character. *)
Example diagnostics_message_evaluated :
  Diagnostics.database (test_database None (Some "timed out" : option string))
  = "❌ Error: timed out"
  ∧ Diagnostics.database
      (test_database None
         (Some "connection to the replica set was reset by the peer while listing"
          : option string))
    = "❌ Error: connection to the replica set was reset by the pee".
Proof. split; reflexivity. Qed.

Section HandlerErrors.
Context {DB : Type} `{!Database DB}.

(** X10: the games and the posts listings never raise, whatever the
    adapter does; the bookings listing raises exactly when the read of the
    store raises; and every error a listing or a creating handler raises
    has status 500. *)
Theorem handler_errors (db : option DB) :
  (∃ listed, list_games db = inr listed)
  ∧ (∃ listed, list_posts db = inr listed)
  ∧ (∀ u, (∃ err, list_bookings u db = inl err) ↔
          (∃ e, get_documents "booking" (booking_filter u) db = inl e))
  ∧ (∀ status detail,
       (∃ u, list_bookings u db = inl (HTTPException status detail))
       ∨ (∃ p db', create_booking p db = (inl (HTTPException status detail), db'))
       ∨ (∃ p db', create_game p db = (inl (HTTPException status detail), db'))
       ∨ (∃ p db', create_post p db = (inl (HTTPException status detail), db')) →
       status = 500%Z).
Proof.
  split; [|split; [|split]].
  - unfold list_games. destruct (get_documents _ _ _); by eexists.
  - unfold list_posts. destruct (get_documents _ _ _); by eexists.
  - intros u. unfold list_bookings.
    destruct (get_documents _ _ _) as [e|docs]; split.
    + intros _. by exists e.
    + intros _. by eexists.
    + by intros [err Herr].
    + by intros [e He].
  - intros status detail [[u Hl]|[(p & db' & Hc)|[(p & db' & Hc)|(p & db' & Hc)]]].
    + unfold list_bookings in Hl.
      destruct (get_documents _ _ _); by simplify_eq.
    + unfold create_booking in Hc.
      destruct (create_document _ _ _) as [[e|gid] db'']; by simplify_eq.
    + unfold create_game in Hc.
      destruct (create_document _ _ _) as [[e|gid] db'']; by simplify_eq.
    + unfold create_post in Hc.
      destruct (create_document _ _ _) as [[e|pid] db'']; by simplify_eq.
Qed.

End HandlerErrors.

Lemma handler_errors_witness :
  let db : option string := Some "connection reset" in
  list_games db = inr []
  ∧ list_bookings (Some "u1") db = inl (HTTPException 500 "connection reset")
  ∧ (∃ e, get_documents "booking" (booking_filter (Some "u1")) db = inl e).
Proof.
  cbv zeta.
  destruct (handler_errors (Some "connection reset" : option string))
    as (_ & _ & Hbookings & _).
  split; [reflexivity|]. split; [reflexivity|].
  apply (Hbookings (Some "u1")). by eexists.
Defined.

(** The diagnostics at a handle whose name cannot be read, with a message
    of 65 characters: the probe ends normally and the status shows the
    first 50. *)
Lemma test_database_never_raises_witness :
  let message :=
    "connection to the replica set was reset by the peer while listing" in
  let db : option string := Some message in
  Diagnostics.try_except (probe None db)
    (λ e, Diagnostics.assign (Diagnostics.set_database
            ("❌ Error: " +:+ py_prefix 50 (exc_str e))))
    (Diagnostics.mk "✅ Running" "❌ Not Available" None None "Not Connected" [])
  = (inr (), test_database None db)
  ∧ ∃ shown rest,
      Diagnostics.database (test_database None db) = "❌ Error: " +:+ shown
      ∧ message = shown +:+ rest
      ∧ py_len shown = 50%nat
      ∧ ((py_len message ≤ 50)%nat → shown = message).
Proof.
  cbv zeta.
  destruct (test_database_never_raises None
    (Some "connection to the replica set was reset by the peer while listing"
     : option string)) as (Hends & _ & _ & _ & _ & _ & _ & Hshown).
  split; [exact Hends|exact Hshown].
Defined.
